(** * The rustdoc sidebar manifest of [chill::path]

    Source: [doc/v0.1.1/chill/path/sidebar-items.js].  The file is one
    JavaScript expression statement: a call of [initSidebarItems] on an
    object literal.  We transcribe that statement into a small syntax of
    JavaScript, read the literal as a finite map from item categories to
    lists of (name, description) pairs, and state the properties of the
    manifest over that map. *)

From Stdlib Require Import Ascii.
From stdpp Require Import gmap strings list sorting.

(** ** JavaScript syntax *)

Module Js.

#[local] Set Warnings "-register-all".

(** Expressions and statements of the fragment.  The manifest itself only
    uses string, array and object literals and one call; the remaining
    constructors are what a script could contain besides. *)
Inductive expr : Type :=
  | EString (s : string)
  | EIdent (x : string)
  | EArray (elems : list expr)
  | EObject (props : list (string * expr))
  | ECall (callee : string) (args : list expr)
  | EFunction (params : list string) (body : list stmt)
with stmt : Type :=
  | SExpr (e : expr)
  | SVar (x : string) (init : expr)
  | SFunction (name : string) (params : list string) (body : list stmt)
  | SIf (cond : expr) (thn els : list stmt)
  | SWhile (cond : expr) (body : list stmt)
  | SReturn (e : expr).

Definition program : Type := list stmt.

(** A literal is built from strings, arrays and objects only. *)
Fixpoint is_literal (e : expr) : bool :=
  match e with
  | EString _ => true
  | EArray es => forallb is_literal es
  | EObject ps => forallb (fun p => is_literal (snd p)) ps
  | EIdent _ | ECall _ _ | EFunction _ _ => false
  end.

(** Number of call expressions, of function definitions and of control-flow
    statements in a script. *)
Definition sum_with {A} (f : A -> nat) (l : list A) : nat :=
  fold_right (fun x n => f x + n) 0 l.

Fixpoint expr_calls (e : expr) : nat :=
  match e with
  | EString _ | EIdent _ => 0
  | EArray es => sum_with expr_calls es
  | EObject ps => sum_with (fun p => expr_calls (snd p)) ps
  | ECall _ args => S (sum_with expr_calls args)
  | EFunction _ body => sum_with stmt_calls body
  end
with stmt_calls (s : stmt) : nat :=
  match s with
  | SExpr e | SVar _ e | SReturn e => expr_calls e
  | SFunction _ _ body => sum_with stmt_calls body
  | SIf c t e => expr_calls c + sum_with stmt_calls t + sum_with stmt_calls e
  | SWhile c body => expr_calls c + sum_with stmt_calls body
  end.

Fixpoint expr_functions (e : expr) : nat :=
  match e with
  | EString _ | EIdent _ => 0
  | EArray es => sum_with expr_functions es
  | EObject ps => sum_with (fun p => expr_functions (snd p)) ps
  | ECall _ args => sum_with expr_functions args
  | EFunction _ body => S (sum_with stmt_functions body)
  end
with stmt_functions (s : stmt) : nat :=
  match s with
  | SExpr e | SVar _ e | SReturn e => expr_functions e
  | SFunction _ _ body => S (sum_with stmt_functions body)
  | SIf c t e =>
      expr_functions c + sum_with stmt_functions t + sum_with stmt_functions e
  | SWhile c body => expr_functions c + sum_with stmt_functions body
  end.

Fixpoint expr_control (e : expr) : nat :=
  match e with
  | EString _ | EIdent _ => 0
  | EArray es => sum_with expr_control es
  | EObject ps => sum_with (fun p => expr_control (snd p)) ps
  | ECall _ args => sum_with expr_control args
  | EFunction _ body => sum_with stmt_control body
  end
with stmt_control (s : stmt) : nat :=
  match s with
  | SExpr e | SVar _ e => expr_control e
  | SReturn e => S (expr_control e)
  | SFunction _ _ body => sum_with stmt_control body
  | SIf c t e =>
      S (expr_control c + sum_with stmt_control t + sum_with stmt_control e)
  | SWhile c body => S (expr_control c + sum_with stmt_control body)
  end.

(** Statements that bind a name. *)
Definition is_binding (s : stmt) : bool :=
  match s with
  | SVar _ _ | SFunction _ _ _ => true
  | _ => false
  end.

End Js.

Import Js.

(** ** The source file *)

(** The argument of the call: the object literal, property by property and
    element by element in source order. *)
Definition sidebar_literal : expr :=
  EObject [
    ("constant", EArray [
       EArray [EString "DESIGN_PREFIX"; EString ""];
       EArray [EString "LOCAL_PREFIX"; EString ""];
       EArray [EString "VIEW_PREFIX"; EString ""]]);
    ("enum", EArray [
       EArray [EString "DocumentId"; EString ""];
       EArray [EString "DocumentIdRef"; EString ""]]);
    ("struct", EArray [
       EArray [EString "AttachmentName";
               EString "A heap-allocated attachment  name, owned and managed internally."];
       EArray [EString "AttachmentNameRef";
               EString "A reference to a attachment  name, owned elsewhere."];
       EArray [EString "AttachmentPath"; EString ""];
       EArray [EString "AttachmentPathRef"; EString ""];
       EArray [EString "DatabaseName";
               EString "A heap-allocated database  name, owned and managed internally."];
       EArray [EString "DatabaseNameRef";
               EString "A reference to a database  name, owned elsewhere."];
       EArray [EString "DatabasePath"; EString ""];
       EArray [EString "DatabasePathRef"; EString ""];
       EArray [EString "DesignDocumentName";
               EString "A heap-allocated design document  name, owned and managed internally."];
       EArray [EString "DesignDocumentNameRef";
               EString "A reference to a design document  name, owned elsewhere."];
       EArray [EString "DesignDocumentPath"; EString ""];
       EArray [EString "DesignDocumentPathRef"; EString ""];
       EArray [EString "DocumentPath"; EString ""];
       EArray [EString "DocumentPathRef"; EString ""];
       EArray [EString "LocalDocumentName";
               EString "A heap-allocated local document  name, owned and managed internally."];
       EArray [EString "LocalDocumentNameRef";
               EString "A reference to a local document  name, owned elsewhere."];
       EArray [EString "NormalDocumentName";
               EString "A heap-allocated normal document  name, owned and managed internally."];
       EArray [EString "NormalDocumentNameRef";
               EString "A reference to a normal document  name, owned elsewhere."];
       EArray [EString "ViewName";
               EString "A heap-allocated view  name, owned and managed internally."];
       EArray [EString "ViewNameRef";
               EString "A reference to a view  name, owned elsewhere."];
       EArray [EString "ViewPath"; EString ""];
       EArray [EString "ViewPathRef"; EString ""]]);
    ("trait", EArray [
       EArray [EString "IntoAttachmentPath"; EString ""];
       EArray [EString "IntoDatabasePath"; EString ""];
       EArray [EString "IntoDesignDocumentPath"; EString ""];
       EArray [EString "IntoDocumentPath"; EString ""];
       EArray [EString "IntoViewPath"; EString ""]])].

(** The whole script. *)
Definition sidebar_items_js : program :=
  [SExpr (ECall "initSidebarItems" [sidebar_literal])].

(** ** Reading the literal *)

(** An item of the sidebar: a name and its one-line description.  The page
    script that receives the manifest reads [item[0]] and [item[1]]. *)
Definition item : Type := string * string.

Definition read_item (e : expr) : option item :=
  match e with
  | EArray [EString name; EString desc] => Some (name, desc)
  | _ => None
  end.

Definition read_items (e : expr) : option (list item) :=
  match e with
  | EArray es => mapM read_item es
  | _ => None
  end.

(** An object literal defines its properties from left to right; a property
    that repeats a name replaces the earlier one. *)
Definition read_property (acc : option (gmap string (list item)))
    (p : string * expr) : option (gmap string (list item)) :=
  m ← acc; its ← read_items p.2; Some (<[p.1 := its]> m).

Definition read_object (e : expr) : option (gmap string (list item)) :=
  match e with
  | EObject ps => foldl read_property (Some ∅) ps
  | _ => None
  end.

(** The arguments of the top-level calls of [f], in program order. *)
Definition calls_of (f : string) (p : program) : list (list expr) :=
  omap (fun s => match s with
                 | SExpr (ECall g args) => if decide (g = f) then Some args else None
                 | _ => None
                 end) p.

(** The manifest handed to [initSidebarItems]. *)
Definition manifest : gmap string (list item) :=
  default ∅ (read_object sidebar_literal).

Definition category (c : string) : list item := default [] (manifest !! c).

Definition names (c : string) : list string := (category c).*1.

Definition categories : list string := ["constant"; "enum"; "struct"; "trait"].

(** Every name of the manifest, category by category. *)
Definition all_names : list string := c ← categories; names c.

(** The property names of an object literal, in source order. *)
Definition object_keys (e : expr) : list string :=
  match e with
  | EObject ps => ps.*1
  | _ => []
  end.

(** ** Names *)

Module Name.

(** [strip_suffix suf s] is [Some k] exactly when [s] is [k] followed by
    [suf]; [strip_prefix] is its mirror image. *)
Fixpoint strip_suffix (suf s : string) : option string :=
  if decide (s = suf) then Some ""
  else match s with
       | "" => None
       | String c s' => String c <$> strip_suffix suf s'
       end.

Fixpoint strip_prefix (pre s : string) : option string :=
  match pre, s with
  | "", _ => Some s
  | String a pre', String b s' =>
      if decide (a = b) then strip_prefix pre' s' else None
  | String _ _, "" => None
  end.

Definition ends_with (suf s : string) : bool :=
  bool_decide (is_Some (strip_suffix suf s)).

Definition starts_with (pre s : string) : bool :=
  bool_decide (is_Some (strip_prefix pre s)).

(** Character classes of identifiers. *)
Definition in_range (lo hi : N) (c : ascii) : bool :=
  let n := Ascii.N_of_ascii c in ((lo <=? n) && (n <=? hi))%N.

Definition is_upper : ascii -> bool := in_range 65 90.
Definition is_lower : ascii -> bool := in_range 97 122.
Definition is_digit : ascii -> bool := in_range 48 57.
Definition is_underscore (c : ascii) : bool := bool_decide (c = "_"%char).

Definition ident_start (c : ascii) : bool :=
  is_upper c || is_lower c || is_underscore c.

Definition ident_part (c : ascii) : bool := ident_start c || is_digit c.

Fixpoint all_chars (p : ascii -> bool) (s : string) : bool :=
  match s with
  | "" => true
  | String c s' => p c && all_chars p s'
  end.

Definition is_identifier (s : string) : bool :=
  match s with
  | "" => false
  | String c s' => ident_start c && all_chars ident_part s'
  end.

(** A description is one line when it has no line feed or carriage return. *)
Definition one_line (s : string) : bool :=
  all_chars (fun c => negb (bool_decide (c = "010"%char))
                      && negb (bool_decide (c = "013"%char))) s.

(** The words of a CamelCase stem in lower case, separated by one space:
    [DesignDocument] reads [design document]. *)
Definition to_lower (c : ascii) : ascii :=
  if is_upper c then Ascii.ascii_of_N (Ascii.N_of_ascii c + 32) else c.

Fixpoint phrase_tail (s : string) : string :=
  match s with
  | "" => ""
  | String c s' =>
      if is_upper c then String " " (String (to_lower c) (phrase_tail s'))
      else String c (phrase_tail s')
  end.

Definition phrase (stem : string) : string :=
  match stem with
  | "" => ""
  | String c s' => String (to_lower c) (phrase_tail s')
  end.

(** Lexicographic order on names, by character code. *)
Definition lt (a b : string) : Prop := String.compare a b = Lt.

#[global] Instance lt_dec : RelDecision lt.
Proof. intros a b. unfold lt. solve_decision. Defined.

End Name.

(** ** Resource kinds *)

(** The kinds of resource the documented module addresses, with the
    CamelCase stem each contributes to type names. *)
Inductive resource_kind : Type :=
  | Database
  | LocalDocument
  | NormalDocument
  | DesignDocument
  | View
  | Attachment.

Definition stem (k : resource_kind) : string :=
  match k with
  | Database => "Database"
  | LocalDocument => "LocalDocument"
  | NormalDocument => "NormalDocument"
  | DesignDocument => "DesignDocument"
  | View => "View"
  | Attachment => "Attachment"
  end.

(** The stem of the path types that address a resource of kind [k]: local
    and normal documents are both addressed by [DocumentPath]. *)
Definition path_stem (k : resource_kind) : string :=
  match k with
  | LocalDocument | NormalDocument => "Document"
  | _ => stem k
  end.

Definition listed (c n : string) : Prop := n ∈ names c.

#[global] Instance listed_dec c n : Decision (listed c n).
Proof. unfold listed. apply _. Defined.

Definition name_types_listed (k : string) : Prop :=
  listed "struct" (k +:+ "Name") ∧ listed "struct" (k +:+ "NameRef").

Definition path_types_listed (k : string) : Prop :=
  listed "struct" (k +:+ "Path") ∧ listed "struct" (k +:+ "PathRef").

(** The names of the listed types: structs and enums. *)
Definition type_names : list string := names "struct" ++ names "enum".

(** The structs that name a resource, as opposed to those that locate one. *)
Definition is_name_struct (c n : string) : bool :=
  bool_decide (c = "struct")
  && (Name.ends_with "Name" n || Name.ends_with "NameRef" n).

Definition owned_description (kind : string) : string :=
  "A heap-allocated " +:+ Name.phrase kind
    +:+ "  name, owned and managed internally.".

Definition reference_description (kind : string) : string :=
  "A reference to a " +:+ Name.phrase kind +:+ "  name, owned elsewhere.".

(** The resource stem of a conversion trait name [Into<Kind>Path]. *)
Definition into_stem (n : string) : option string :=
  r ← Name.strip_prefix "Into" n; Name.strip_suffix "Path" r.

Definition trait_stems : list string := omap into_stem (names "trait").

Definition path_stems : list string :=
  omap (Name.strip_suffix "Path") (names "struct").

(** [describes suf descr it]: if the name of [it] is some [k] followed by
    [suf], then its description is [descr k]. *)
Definition describes (suf : string) (descr : string → string)
    (it : item) : bool :=
  match Name.strip_suffix suf it.1 with
  | Some k => bool_decide (it.2 = descr k)
  | None => true
  end.

(** [paired l n]: a name without the [Ref] suffix has its [Ref] companion
    in [l], and a name with it has its owner there. *)
Definition paired (l : list string) (n : string) : bool :=
  match Name.strip_suffix "Ref" n with
  | Some t => bool_decide (t ∈ l) && negb (Name.ends_with "Ref" t)
  | None => bool_decide (n +:+ "Ref" ∈ l)
  end.

(** [ref_follows l]: the list reads [t1; t1Ref; t2; t2Ref; ...], every
    name at an even position lacking the [Ref] suffix and being followed
    at once by its [Ref] companion. *)
Fixpoint ref_follows (l : list string) : bool :=
  match l with
  | [] => true
  | t :: r :: l' =>
      negb (Name.ends_with "Ref" t) && bool_decide (r = t +:+ "Ref")
      && ref_follows l'
  | [_] => false
  end.

(** ** Strings *)

Section string_facts.
Implicit Types s t k suf pre : string.

Lemma app_empty_l s : "" +:+ s = s.
Proof. reflexivity. Qed.

Lemma app_String c k s : String c k +:+ s = String c (k +:+ s).
Proof. reflexivity. Qed.

Lemma app_length k s :
  String.length (k +:+ s) = String.length k + String.length s.
Proof.
  induction k as [|c k IH]; [done|].
  rewrite app_String. simpl. by rewrite IH.
Qed.

Lemma app_longer c k s : String c (k +:+ s) ≠ s.
Proof.
  intros E. apply (f_equal String.length) in E.
  simpl in E. rewrite app_length in E. lia.
Qed.

Lemma strip_suffix_unfold suf s :
  Name.strip_suffix suf s =
    if decide (s = suf) then Some ""
    else match s with
         | "" => None
         | String c s' => String c <$> Name.strip_suffix suf s'
         end.
Proof. by destruct s. Qed.

Lemma strip_suffix_app k suf : Name.strip_suffix suf (k +:+ suf) = Some k.
Proof.
  induction k as [|c k IH]; rewrite strip_suffix_unfold.
  - by rewrite app_empty_l, decide_True.
  - rewrite app_String, decide_False by apply app_longer.
    by rewrite IH.
Qed.

Lemma strip_suffix_Some suf s k :
  Name.strip_suffix suf s = Some k ↔ s = k +:+ suf.
Proof.
  split; [|intros ->; apply strip_suffix_app].
  revert k. induction s as [|c s IH]; intros k;
    rewrite strip_suffix_unfold; case_decide; subst.
  - by intros [= <-].
  - done.
  - by intros [= <-].
  - destruct (Name.strip_suffix suf s) as [k'|] eqn:E; simpl; [|done].
    intros [= <-]. rewrite app_String. f_equal. by apply IH.
Qed.

Lemma strip_prefix_Some pre s k :
  Name.strip_prefix pre s = Some k ↔ s = pre +:+ k.
Proof.
  revert s. induction pre as [|a pre IH]; intros s; simpl.
  - rewrite app_empty_l. split; [by intros [= ->]|by intros ->].
  - rewrite app_String. destruct s as [|b s]; [done|].
    case_decide as E.
    + subst b. rewrite IH. split; [by intros ->|by intros [= ->]].
    + split; [done|]. by intros [= ? ?].
Qed.

Lemma ends_with_true suf s :
  Name.ends_with suf s = true ↔ ∃ k, s = k +:+ suf.
Proof.
  unfold Name.ends_with, is_Some. rewrite bool_decide_eq_true.
  by setoid_rewrite strip_suffix_Some.
Qed.

Lemma ends_with_false suf s :
  Name.ends_with suf s = false ↔ ∀ k, s ≠ k +:+ suf.
Proof.
  rewrite <- not_true_iff_false, ends_with_true.
  split; [intros H k ->; apply H; eauto|intros H [k ->]; by apply (H k)].
Qed.

Lemma starts_with_true pre s :
  Name.starts_with pre s = true ↔ ∃ k, s = pre +:+ k.
Proof.
  unfold Name.starts_with, is_Some. rewrite bool_decide_eq_true.
  by setoid_rewrite strip_prefix_Some.
Qed.

End string_facts.

(** ** The manifest *)

Section manifest_facts.

(** The four categories, item by item. *)
Lemma category_constant :
  category "constant" =
    [("DESIGN_PREFIX", ""); ("LOCAL_PREFIX", ""); ("VIEW_PREFIX", "")].
Proof. reflexivity. Qed.

Lemma category_enum :
  category "enum" = [("DocumentId", ""); ("DocumentIdRef", "")].
Proof. reflexivity. Qed.

Lemma names_trait :
  names "trait" =
    ["IntoAttachmentPath"; "IntoDatabasePath"; "IntoDesignDocumentPath";
     "IntoDocumentPath"; "IntoViewPath"].
Proof. reflexivity. Qed.

Lemma manifest_read : read_object sidebar_literal = Some manifest.
Proof. reflexivity. Qed.

Lemma manifest_dom : dom manifest = list_to_set categories.
Proof. apply (bool_decide_unpack _). by vm_compute. Qed.

Lemma manifest_lookup c l :
  manifest !! c = Some l → c ∈ categories ∧ l = category c.
Proof.
  intros E. split.
  - assert (c ∈ dom manifest) as D by (apply elem_of_dom; eauto).
    rewrite manifest_dom in D. set_solver.
  - unfold category. by rewrite E.
Qed.

(** A property of every item of the manifest follows from checking it on
    the four categories. *)
Lemma manifest_items_ind (P : string → item → Prop) :
  Forall (λ c, Forall (P c) (category c)) categories →
  ∀ c l it, manifest !! c = Some l → it ∈ l → P c it.
Proof.
  intros HP c l it [Hc ->]%manifest_lookup Hit.
  rewrite Forall_forall in HP. specialize (HP c Hc).
  rewrite Forall_forall in HP. by apply HP.
Qed.

End manifest_facts.

(** ** Proof by evaluation *)

Ltac by_evaluation := apply (bool_decide_unpack _); vm_compute; exact I.

Ltac elem_cases H :=
  repeat (apply elem_of_cons in H as [->|H]); [..|by apply elem_of_nil in H].

Lemma into_stem_Some n k :
  into_stem n = Some k ↔ n = "Into" +:+ k +:+ "Path".
Proof.
  unfold into_stem. rewrite bind_Some. split.
  - intros (r & ->%strip_prefix_Some & ->%strip_suffix_Some). done.
  - intros ->. exists (k +:+ "Path").
    by rewrite strip_prefix_Some, strip_suffix_Some.
Qed.

Lemma describes_spec suf descr n d k :
  describes suf descr (n, d) = true → n = k +:+ suf → d = descr k.
Proof.
  unfold describes. simpl. intros H ->.
  rewrite strip_suffix_app in H. by apply bool_decide_eq_true in H.
Qed.

(** ** Shape of the script *)

(** C1: the script is exactly one statement, a call of [initSidebarItems]
    with one argument.  That argument is a literal: an object whose
    properties are, in order, the four categories constant, enum, struct and
    trait, each holding an array of two-element arrays of strings, an
    identifier followed by a one-line description.  The script holds no
    other call, defines no function, binds no name and has no control
    flow. *)
Theorem script_is_one_call_on_a_literal :
  ∃ arg : expr,
    sidebar_items_js = [SExpr (ECall "initSidebarItems" [arg])]
    ∧ calls_of "initSidebarItems" sidebar_items_js = [[arg]]
    ∧ sum_with stmt_calls sidebar_items_js = 1
    ∧ is_literal arg = true
    ∧ object_keys arg = categories
    ∧ read_object arg = Some manifest
    ∧ dom manifest = list_to_set categories
    ∧ (∀ c l it, manifest !! c = Some l → it ∈ l →
         Name.is_identifier it.1 = true ∧ Name.one_line it.2 = true)
    ∧ sum_with stmt_functions sidebar_items_js = 0
    ∧ sum_with stmt_control sidebar_items_js = 0
    ∧ existsb is_binding sidebar_items_js = false.
Proof.
  exists sidebar_literal. split_and!; try reflexivity.
  apply (manifest_items_ind
    (λ _ it, Name.is_identifier it.1 = true ∧ Name.one_line it.2 = true)).
  by_evaluation.
Qed.

(** ** The categories *)

(** C4: the constant category has exactly three entries, named
    DESIGN_PREFIX, LOCAL_PREFIX and VIEW_PREFIX; a name is a listed constant
    only if it is one of these. *)
Theorem constants_are_the_three_prefixes :
  length (category "constant") = 3
  ∧ names "constant" = ["DESIGN_PREFIX"; "LOCAL_PREFIX"; "VIEW_PREFIX"]
  ∧ ∀ n, listed "constant" n ↔
         n = "DESIGN_PREFIX" ∨ n = "LOCAL_PREFIX" ∨ n = "VIEW_PREFIX".
Proof.
  split_and!; [done..|]. intros n. unfold listed, names.
  rewrite category_constant. simpl. rewrite !elem_of_cons, elem_of_nil. tauto.
Qed.

(** C5: the enum category has exactly two entries, named DocumentId and
    DocumentIdRef; a name is a listed enum only if it is one of these. *)
Theorem enums_are_the_document_ids :
  length (category "enum") = 2
  ∧ names "enum" = ["DocumentId"; "DocumentIdRef"]
  ∧ ∀ n, listed "enum" n ↔ n = "DocumentId" ∨ n = "DocumentIdRef".
Proof.
  split_and!; [done..|]. intros n. unfold listed, names.
  rewrite category_enum. simpl. rewrite !elem_of_cons, elem_of_nil. tauto.
Qed.

(** C6: the trait category has exactly five entries, and each of them is
    named [Into<Kind>Path] for some non-empty [<Kind>]: it starts with Into
    and ends with Path. *)
Theorem traits_are_five_into_paths :
  length (category "trait") = 5
  ∧ ∀ n, listed "trait" n →
      Name.starts_with "Into" n = true ∧ Name.ends_with "Path" n = true
      ∧ ∃ kind, kind ≠ "" ∧ n = "Into" +:+ kind +:+ "Path".
Proof.
  split; [done|]. intros n Hn. unfold listed in Hn.
  rewrite names_trait in Hn. elem_cases Hn.
  all: split_and!; [done..|].
  - by exists "Attachment".
  - by exists "Database".
  - by exists "DesignDocument".
  - by exists "Document".
  - by exists "View".
Qed.

Lemma traits_are_five_into_paths_witness :
  Name.starts_with "Into" "IntoViewPath" = true
  ∧ Name.ends_with "Path" "IntoViewPath" = true
  ∧ ∃ kind, kind ≠ "" ∧ "IntoViewPath" = "Into" +:+ kind +:+ "Path".
Proof.
  apply (proj2 traits_are_five_into_paths "IntoViewPath").
  by_evaluation.
Defined.

(** ** Name and path types *)

Lemma local_document_path_not_listed : ¬ listed "struct" "LocalDocumentPath".
Proof. by_evaluation. Qed.

(** C2, as stated, fails for local documents: [LocalDocumentName] and
    [LocalDocumentNameRef] are listed, [LocalDocumentPath] is not. *)
Lemma local_document_lacks_path_types :
  ¬ (name_types_listed (stem LocalDocument)
     ∧ path_types_listed (stem LocalDocument)).
Proof. intros [_ [H _]]. by apply local_document_path_not_listed. Qed.

(** C2, amended: for each of the six resource kinds the struct list holds
    [<Kind>Name] and [<Kind>NameRef].  It holds [<Kind>Path] and
    [<Kind>PathRef] for databases, design documents, views and attachments;
    for local and normal documents it holds neither, the path types listed
    for them being the shared [DocumentPath] and [DocumentPathRef]. *)
Theorem name_types_per_kind_path_types_shared (k : resource_kind) :
  name_types_listed (stem k)
  ∧ path_types_listed (path_stem k)
  ∧ match k with
    | LocalDocument | NormalDocument =>
        ¬ listed "struct" (stem k +:+ "Path")
        ∧ ¬ listed "struct" (stem k +:+ "PathRef")
        ∧ path_stem k = "Document"
    | _ => path_types_listed (stem k)
    end.
Proof.
  unfold name_types_listed, path_types_listed.
  destruct k; split_and!; try reflexivity; by_evaluation.
Qed.

(** C3: every name listed as a struct or an enum that does not end in Ref
    has its Ref companion listed, and every listed name that ends in Ref is
    a listed name not ending in Ref, followed by Ref. *)
Theorem types_come_in_owned_reference_pairs (n : string) :
  n ∈ type_names →
  (Name.ends_with "Ref" n = false → n +:+ "Ref" ∈ type_names)
  ∧ (Name.ends_with "Ref" n = true →
       ∃ t, n = t +:+ "Ref" ∧ t ∈ type_names
            ∧ Name.ends_with "Ref" t = false).
Proof.
  intros Hn.
  assert (Forall (λ n, paired type_names n = true) type_names) as HP
    by by_evaluation.
  rewrite Forall_forall in HP. specialize (HP n Hn). unfold paired in HP.
  destruct (Name.strip_suffix "Ref" n) as [t|] eqn:E.
  - apply andb_true_iff in HP as [Ht Hr].
    apply bool_decide_eq_true in Ht. apply negb_true_iff in Hr.
    apply strip_suffix_Some in E as ->. split.
    + intros Hf. rewrite ends_with_false in Hf. by destruct (Hf t).
    + intros _. by exists t.
  - apply bool_decide_eq_true in HP. split; [done|].
    intros [t ->]%ends_with_true. by rewrite strip_suffix_app in E.
Qed.

Lemma types_come_in_owned_reference_pairs_witness :
  "DocumentId" +:+ "Ref" ∈ type_names
  ∧ ∃ t, "ViewPathRef" = t +:+ "Ref" ∧ t ∈ type_names
         ∧ Name.ends_with "Ref" t = false.
Proof.
  split.
  - apply (types_come_in_owned_reference_pairs "DocumentId");
      [by_evaluation|reflexivity].
  - apply (types_come_in_owned_reference_pairs "ViewPathRef");
      [by_evaluation|reflexivity].
Defined.

(** C7: a struct named [<Kind>Name] is described as
    [A heap-allocated <kind>  name, owned and managed internally.] and a
    struct named [<Kind>NameRef] as
    [A reference to a <kind>  name, owned elsewhere.], where [<kind>] is
    the stem's words in lower case (two spaces follow it). *)
Theorem name_structs_are_described (n d kind : string) :
  (n, d) ∈ category "struct" →
  (n = kind +:+ "Name" → d = owned_description kind)
  ∧ (n = kind +:+ "NameRef" → d = reference_description kind).
Proof.
  intros Hn.
  assert (Forall (λ it, describes "Name" owned_description it = true
                        ∧ describes "NameRef" reference_description it = true)
            (category "struct")) as HD by by_evaluation.
  rewrite Forall_forall in HD. destruct (HD _ Hn) as [Ho Hr].
  split; intros E; eauto using describes_spec.
Qed.

Lemma name_structs_are_described_witness :
  "A heap-allocated design document  name, owned and managed internally."
    = owned_description "DesignDocument"
  ∧ "A reference to a view  name, owned elsewhere."
    = reference_description "View".
Proof.
  split.
  - apply (name_structs_are_described "DesignDocumentName" _ "DesignDocument");
      [by_evaluation|reflexivity].
  - apply (name_structs_are_described "ViewNameRef" _ "View");
      [by_evaluation|reflexivity].
Defined.

(** ** Order, descriptions and conversion traits *)

Lemma names_absent c : manifest !! c = None → names c = [].
Proof. intros E. unfold names, category. by rewrite E. Qed.

(** C8: in every category the names are in strictly ascending
    lexicographic order, and no name occurs twice in the manifest, be it
    in one category or in two. *)
Theorem names_ascend_and_are_unique :
  (∀ c, StronglySorted Name.lt (names c))
  ∧ NoDup all_names
  ∧ ∀ c n, n ∈ names c → n ∈ all_names.
Proof.
  assert (∀ c, c ∈ categories ∨ names c = []) as Hc.
  { intros c. destruct (manifest !! c) as [l|] eqn:E.
    - left. by apply manifest_lookup in E as [? _].
    - right. by apply names_absent. }
  split_and!.
  - intros c. destruct (Hc c) as [Hin| ->]; [|constructor].
    unfold categories in Hin. elem_cases Hin; by_evaluation.
  - by_evaluation.
  - intros c n Hn. destruct (Hc c) as [Hin|E].
    + unfold all_names. apply list_elem_of_bind. eauto.
    + rewrite E in Hn. by apply elem_of_nil in Hn.
Qed.

(** C9: every item other than a [*Name] or [*NameRef] struct has the empty
    description.  Twelve structs are of that form; the other twenty items
    are the three constants, the two enums, ten [*Path] and [*PathRef]
    structs and the five traits. *)
Theorem other_items_have_no_description :
  length (filter (λ it, is_name_struct "struct" it.1 = true)
            (category "struct")) = 12
  ∧ length (filter (λ it, Name.ends_with "Path" it.1 = true
                          ∨ Name.ends_with "PathRef" it.1 = true)
              (filter (λ it, is_name_struct "struct" it.1 = false)
                 (category "struct"))) = 10
  ∧ length (filter (λ it, is_name_struct "struct" it.1 = false)
              (category "struct")) = 10
  ∧ length (category "constant") = 3
  ∧ length (category "enum") = 2
  ∧ length (category "trait") = 5
  ∧ ∀ c l n d, manifest !! c = Some l → (n, d) ∈ l →
      is_name_struct c n = false → d = "".
Proof.
  split_and!; [by vm_compute..|].
  intros c l n d Hc Hn.
  apply (manifest_items_ind
    (λ c it, is_name_struct c it.1 = false → it.2 = "") ltac:(by_evaluation)
    c l (n, d) Hc Hn).
Qed.

Lemma other_items_have_no_description_witness :
  ∃ d, ("DocumentPath", d) ∈ category "struct" ∧ d = "".
Proof.
  exists "". split; [by_evaluation|].
  apply (proj2 (proj2 (proj2 (proj2 (proj2 (proj2
           other_items_have_no_description)))))
           "struct" (category "struct") "DocumentPath" "");
    [reflexivity|by_evaluation|reflexivity].
Defined.

(** C10: the stems of the five [Into<Kind>Path] traits are those of the
    [<Kind>Path] structs, namely Attachment, Database, DesignDocument,
    Document and View: each trait has its [<Kind>Path] and [<Kind>PathRef]
    structs listed, and each [<Kind>Path] struct has its trait listed. *)
Theorem traits_match_path_structs :
  trait_stems =
    ["Attachment"; "Database"; "DesignDocument"; "Document"; "View"]
  ∧ path_stems = trait_stems
  ∧ (∀ k, listed "trait" ("Into" +:+ k +:+ "Path") → path_types_listed k)
  ∧ (∀ k, listed "struct" (k +:+ "Path") →
       listed "trait" ("Into" +:+ k +:+ "Path")).
Proof.
  split_and!; [done..| |]; intros k Hk.
  - assert (k ∈ trait_stems) as Hs.
    { apply list_elem_of_omap. eexists. split; [exact Hk|].
      by apply into_stem_Some. }
    unfold path_types_listed.
    vm_compute in Hs. elem_cases Hs; split; by_evaluation.
  - assert (k ∈ path_stems) as Hs.
    { apply list_elem_of_omap. eexists. split; [exact Hk|].
      by apply strip_suffix_Some. }
    vm_compute in Hs. elem_cases Hs; by_evaluation.
Qed.

Lemma traits_match_path_structs_witness :
  path_types_listed "Document"
  ∧ listed "trait" ("Into" +:+ "Document" +:+ "Path").
Proof.
  destruct traits_match_path_structs as (_ & _ & Ht & Hs). split.
  - apply Ht. by_evaluation.
  - apply Hs. by_evaluation.
Defined.

(** ** The struct list in full *)

Lemma ref_follows_lookup l :
  ref_follows l = true →
  ∀ i t, l !! (2 * i) = Some t →
    Name.ends_with "Ref" t = false ∧ l !! (2 * i + 1) = Some (t +:+ "Ref").
Proof.
  intros H i. revert l H. induction i as [|i IH]; intros l H t Ht.
  - destruct l as [|t' [|r l']]; try done. simpl in *.
    injection Ht as ->.
    apply andb_true_iff in H as [[Hn Hr]%andb_true_iff _].
    apply negb_true_iff in Hn. apply bool_decide_eq_true in Hr.
    by subst r.
  - replace (2 * S i) with (S (S (2 * i))) in Ht by lia.
    replace (2 * S i + 1) with (S (S (2 * i + 1))) by lia.
    destruct l as [|t' [|r l']]; try done. simpl in *.
    apply andb_true_iff in H as [_ H]. by apply IH.
Qed.

(** X1: the struct category has twenty-two entries, and a name is a listed
    struct exactly when it is [<Kind>Name] or [<Kind>NameRef] for one of
    the six resource kinds, or [<Stem>Path] or [<Stem>PathRef] for the path
    stem of one of them. *)
Theorem structs_are_the_name_and_path_types :
  length (category "struct") = 22
  ∧ ∀ n, listed "struct" n ↔
      (∃ k, n = stem k +:+ "Name" ∨ n = stem k +:+ "NameRef")
      ∨ (∃ k, n = path_stem k +:+ "Path" ∨ n = path_stem k +:+ "PathRef").
Proof.
  split; [done|]. intros n. split.
  - intros Hn. unfold listed in Hn. vm_compute in Hn. elem_cases Hn.
    all: solve
      [ (left + right);
        ((exists Database) + (exists LocalDocument) + (exists DesignDocument)
         + (exists NormalDocument) + (exists View) + (exists Attachment));
        (left + right); reflexivity ].
  - intros [[k [-> | ->]]|[k [-> | ->]]]; destruct k; by_evaluation.
Qed.

(** X2: in the struct and enum categories every name at an even position
    is an owned type, not ending in Ref, and the name right after it is
    its Ref companion: the sidebar shows each type directly followed by
    its reference type, both in the same category. *)
Theorem reference_type_follows_owned_type (c : string) (i : nat) (t : string) :
  c = "struct" ∨ c = "enum" →
  names c !! (2 * i) = Some t →
  Name.ends_with "Ref" t = false
  ∧ names c !! (2 * i + 1) = Some (t +:+ "Ref").
Proof.
  intros Hc. apply ref_follows_lookup. by destruct Hc as [-> | ->].
Qed.

Lemma reference_type_follows_owned_type_witness :
  Name.ends_with "Ref" "DocumentPath" = false
  ∧ names "struct" !! (2 * 6 + 1) = Some ("DocumentPath" +:+ "Ref").
Proof.
  apply (reference_type_follows_owned_type "struct" 6 "DocumentPath");
    [by left|reflexivity].
Defined.
